(** * The Conan recipe of up-client-zenoh-cpp (conanfile.py)

    A shallow embedding of the recipe class [UpClientZenoh] and of the
    phases Conan calls on it: [requirements], [generate], [build],
    [package] and [package_info].

    The recipe is imperative Python: every phase reads [self.options] and
    [os.environ] and acts on objects owned by Conan (the requirement list,
    the CMake toolchain, the CMake driver, the package folder and
    [self.cpp_info]).  All of that lives in one record, [World], and a phase
    is a state transformer over it. *)

From Stdlib Require Import Ascii String.
From stdpp Require Import gmap strings list fin_maps.

Open Scope string_scope.
Open Scope list_scope.

(** ** Data model *)

(** [options] / [default_options] of the recipe (lines 21-35): five
    switches, each ranging over [True, False]. *)
Record Options := mkOptions {
  shared : bool;
  fPIC : bool;
  build_testing : bool;
  build_unbundled : bool;
  build_cross_compiling : bool;
}.

Definition default_options : Options :=
  {| shared := false;
     fPIC := false;
     build_testing := false;
     build_unbundled := true;
     build_cross_compiling := false |}.

(** The class attribute [name]. *)
Definition name : string := "up-client-zenoh-cpp".

(** The steps of Conan's [CMake] helper that the recipe drives. *)
Inductive cmake_step := Configure | Build | Install.

(** An entry of a directory listing: a regular file with its content, or
    a symbolic link with its target. *)
Inductive node :=
  | File (content : string)
  | Symlink (target : string).

(** [self.cpp_info]: the metadata published to consumers. *)
Record CppInfo := mkCppInfo {
  cpp_properties : gmap string string;   (* set_property(key, value) *)
  cpp_libs : list string;                (* .libs *)
  cpp_requires : list string;            (* .requires *)
  cpp_names : gmap string string;        (* .names[generator] *)
}.

(** The [cpp_info] Conan hands to [package_info]: nothing set yet. *)
Definition new_cpp_info : CppInfo :=
  {| cpp_properties := ∅; cpp_libs := []; cpp_requires := []; cpp_names := ∅ |}.

(** Everything a phase can read or change.  A directory is named by its
    path and described by its recursive listing, a map from the relative
    path of each entry to the entry. *)
Record World := mkWorld {
  self_options : Options;                    (* self.options *)
  os_environ : gmap string string;           (* os.environ *)
  declared : list string;                    (* references given to self.requires, in call order *)
  toolchains : list (gmap string bool);      (* tc.variables of every toolchain written by tc.generate() *)
  cmake_calls : list cmake_step;             (* calls made on CMake(self), in order *)
  output : list string;                      (* lines of self.output.info *)
  disk : gmap string (gmap string node);     (* directories outside the package folder *)
  package_folder : gmap string node;         (* listing of self.package_folder *)
  self_cpp_info : CppInfo;                   (* self.cpp_info *)
}.

(** A fresh run of the recipe: nothing declared, generated, built, printed
    or packaged yet. *)
Definition start (o : Options) (env : gmap string string)
    (d : gmap string (gmap string node)) : World :=
  {| self_options := o; os_environ := env; declared := []; toolchains := [];
     cmake_calls := []; output := []; disk := d; package_folder := ∅;
     self_cpp_info := new_cpp_info |}.

(** ** Phases as state transformers *)

Definition Phase (A : Type) : Type := World → A * World.

Global Instance Phase_ret : MRet Phase := λ A (a : A) w, (a, w).
Global Instance Phase_bind : MBind Phase :=
  λ A B (k : A → Phase B) (m : Phase A) w, let '(a, w') := m w in k a w'.

(** The world a phase leaves behind. *)
Definition exec {A} (m : Phase A) (w : World) : World := (m w).2.

Definition gets {A} (f : World → A) : Phase A := λ w, (f w, w).
Definition modify (f : World → World) : Phase unit := λ w, (tt, f w).

(** Python's [if c: body] with no [else]. *)
Definition when (c : bool) (body : Phase unit) : Phase unit :=
  if c then body else mret tt.

(** ** Conan's side of the calls *)

(** [self.requires(ref)]: the reference is appended to the declared
    requirements. *)
Definition requires (ref : string) : Phase unit :=
  modify (λ w,
    {| self_options := self_options w; os_environ := os_environ w;
       declared := declared w ++ [ref]; toolchains := toolchains w;
       cmake_calls := cmake_calls w; output := output w; disk := disk w;
       package_folder := package_folder w; self_cpp_info := self_cpp_info w |}).

(** [self.output.info(msg)]. *)
Definition info (msg : string) : Phase unit :=
  modify (λ w,
    {| self_options := self_options w; os_environ := os_environ w;
       declared := declared w; toolchains := toolchains w;
       cmake_calls := cmake_calls w; output := output w ++ [msg]; disk := disk w;
       package_folder := package_folder w; self_cpp_info := self_cpp_info w |}).

(** [os.environ.get(key)]: [None] when the variable is not set, the value
    (any string, the empty one included) when it is. *)
Definition environ_get (key : string) : Phase (option string) :=
  gets (λ w, os_environ w !! key).

(** Python's [x is not None]. *)
Definition is_not_None {A} (x : option A) : bool :=
  match x with Some _ => true | None => false end.

(** [CMakeToolchain(self)]: a toolchain whose user [variables] are empty;
    [tc.generate()] writes it out. *)
Definition CMakeToolchain : Phase (gmap string bool) := mret ∅.

Definition tc_generate (variables : gmap string bool) : Phase unit :=
  modify (λ w,
    {| self_options := self_options w; os_environ := os_environ w;
       declared := declared w; toolchains := toolchains w ++ [variables];
       cmake_calls := cmake_calls w; output := output w; disk := disk w;
       package_folder := package_folder w; self_cpp_info := self_cpp_info w |}).

(** [cmake.configure()], [cmake.build()], [cmake.install()]: the native
    toolchain is opaque here, a call is recorded and nothing more. *)
Definition cmake (step : cmake_step) : Phase unit :=
  modify (λ w,
    {| self_options := self_options w; os_environ := os_environ w;
       declared := declared w; toolchains := toolchains w;
       cmake_calls := cmake_calls w ++ [step]; output := output w; disk := disk w;
       package_folder := package_folder w; self_cpp_info := self_cpp_info w |}).

(** Assignments to the fields of [self.cpp_info]. *)
Definition update_cpp_info (f : CppInfo → CppInfo) : Phase unit :=
  modify (λ w,
    {| self_options := self_options w; os_environ := os_environ w;
       declared := declared w; toolchains := toolchains w;
       cmake_calls := cmake_calls w; output := output w; disk := disk w;
       package_folder := package_folder w; self_cpp_info := f (self_cpp_info w) |}).

Definition set_property (key value : string) : Phase unit :=
  update_cpp_info (λ c,
    {| cpp_properties := <[key := value]> (cpp_properties c); cpp_libs := cpp_libs c;
       cpp_requires := cpp_requires c; cpp_names := cpp_names c |}).

Definition set_libs (l : list string) : Phase unit :=
  update_cpp_info (λ c,
    {| cpp_properties := cpp_properties c; cpp_libs := l;
       cpp_requires := cpp_requires c; cpp_names := cpp_names c |}).

Definition set_requires (l : list string) : Phase unit :=
  update_cpp_info (λ c,
    {| cpp_properties := cpp_properties c; cpp_libs := cpp_libs c;
       cpp_requires := l; cpp_names := cpp_names c |}).

Definition set_names (generator value : string) : Phase unit :=
  update_cpp_info (λ c,
    {| cpp_properties := cpp_properties c; cpp_libs := cpp_libs c;
       cpp_requires := cpp_requires c; cpp_names := <[generator := value]> (cpp_names c) |}).

(** Conan's file copier as the recipe meets it: from the arguments of
    [self.copy], the directories it can read and the package folder it
    finds, to the package folder it leaves.  Which entries it takes, what
    it does at a name already there and when it gives up are Conan's
    business; nothing is assumed about them. *)
Definition Copier : Type :=
  string → string → string → bool → bool →
  gmap string (gmap string node) → gmap string node → gmap string node.

Section Recipe.

(** What Conan does outside the recipe's control and the recipe only
    names: the library scan of [collect_libs] and the file copier behind
    [self.copy]. *)
Variable collect_libs_of : gmap string node → list string.
Variable copier : Copier.

(** [collect_libs(self)] scans the package folder. *)
Definition collect_libs : Phase (list string) :=
  gets (λ w, collect_libs_of (package_folder w)).

(** [self.copy(pattern, dst, src, symlinks, ignore_case)]: the copier is
    handed the five arguments and works on the package folder, where the
    recipe's destination [.] lies.  Should it raise, the phase ends with
    the folder as the copier left it: in the recipe the call is the last
    statement of its branch. *)
Definition copy (pattern dst src : string) (symlinks ignore_case : bool) : Phase unit :=
  modify (λ w,
    {| self_options := self_options w; os_environ := os_environ w;
       declared := declared w; toolchains := toolchains w;
       cmake_calls := cmake_calls w; output := output w; disk := disk w;
       package_folder :=
         copier pattern dst src symlinks ignore_case (disk w) (package_folder w);
       self_cpp_info := self_cpp_info w |}).

(** ** The recipe *)

(** Lines 37-45. *)
Definition requirements : Phase unit :=
  o ← gets self_options;
  requires ("protobuf/3.21.12" +:+
            (if build_cross_compiling o then "@cross/cross" else "")) ;;
  requires "spdlog/1.13.0" ;;
  requires "up-cpp/x.y.z" ;;
  when (build_testing o) (
    requires "gtest/1.14.0" ;;
    requires "boost/1.84.0") ;;
  when (build_unbundled o) (
    requires "zenohc/cci.20240213").

(** Lines 47-50. *)
Definition generate : Phase unit :=
  tc ← CMakeToolchain;
  o ← gets self_options;
  let tc := <["BUILD_TESTING" := build_testing o]> tc in
  tc_generate tc.

(** Lines 52-57: the early [return] leaves the rest of the body undone. *)
Definition build : Phase unit :=
  v ← environ_get "BUILD_DIR_FULL_PATH";
  if is_not_None v then mret tt
  else
    cmake Configure ;;
    cmake Build.

(** Lines 59-67.  The branch taken when the variable is set reads it
    twice more; nothing in between changes [os.environ], so the three
    reads give the same [build_folder_path]. *)
Definition package : Phase unit :=
  v ← environ_get "BUILD_DIR_FULL_PATH";
  match v with
  | Some build_folder_path =>
      info ("BUILD_DIR_FULL_PATH: " +:+ build_folder_path) ;;
      info ("BUILD_DIR_FULL_PATH: " +:+ build_folder_path) ;;
      copy "*" "." (build_folder_path +:+ "/install") true false
  | None =>
      cmake Install
  end.

(** Lines 69-81. *)
Definition package_info : Phase unit :=
  v ← environ_get "BUILD_DIR_FULL_PATH";
  if is_not_None v then
    set_property "cmake_file_name" "up-client-zenoh-cpp" ;;
    set_property "cmake_target_name" "up-client-zenoh-cpp::up-client-zenoh-cpp" ;;
    set_property "pkg_config_name" "up-client-zenoh-cpp" ;;
    libs ← collect_libs;
    set_libs libs ;;
    set_requires ["up-cpp::up-cpp"; "zenohc::zenohc"; "spdlog::spdlog"; "protobuf::protobuf"] ;;
    set_names "cmake_find_package" "up-client-zenoh-cpp" ;;
    set_names "cmake_find_package_multi" "up-client-zenoh-cpp"
  else
    set_libs ["up-client-zenoh-cpp"].

End Recipe.

(** ** Conan references *)

(** A requirement as Conan reads a reference [name/version@user/channel]:
    the component, its version, and the qualifier after [@] when there is
    one. *)
Record Requirement := mkRequirement {
  component : string;
  version : string;
  channel : option string;
}.

(** Cuts [s] at the first [c]: what is before it, and what is after it
    when [c] occurs. *)
Fixpoint cut (c : ascii) (s : string) : string * option string :=
  match s with
  | EmptyString => (EmptyString, None)
  | String a s' =>
      if Ascii.eqb a c then (EmptyString, Some s')
      else let '(before, after) := cut c s' in (String a before, after)
  end.

Definition parse_reference (ref : string) : Requirement :=
  let '(name_version, qualifier) := cut "@" ref in
  let '(n, v) := cut "/" name_version in
  {| component := n; version := default "" v; channel := qualifier |}.

(** ** The resolver *)

(** The requirement list of a run that starts with nothing declared: the
    references [requirements] hands to Conan, in call order. *)
Definition resolve (o : Options) : list string :=
  declared (exec requirements (start o ∅ ∅)).

(** The same list as Conan reads it. *)
Definition resolved (o : Options) : list Requirement :=
  parse_reference <$> resolve o.

(** The same world under another process environment. *)
Definition with_environ (env : gmap string string) (w : World) : World :=
  {| self_options := self_options w; os_environ := env;
     declared := declared w; toolchains := toolchains w;
     cmake_calls := cmake_calls w; output := output w; disk := disk w;
     package_folder := package_folder w; self_cpp_info := self_cpp_info w |}.

(** The same world once [key] is set to [value] in the environment. *)
Definition setenv (key value : string) (w : World) : World :=
  with_environ (<[ key := value ]> (os_environ w)) w.

(** A link target of [cpp_info.requires] is written package::component;
    this is the package it belongs to. *)
Definition link_package (target : string) : string :=
  (cut ":" target).1.

(** ** Sample worlds *)

(** The prebuilt tree of the packaging scenario: a static library and a
    link to it. *)
Definition prebuilt_install : gmap string node :=
  {[ "lib/libfoo.a" := File "archive"; "lib/libfoo.so" := Symlink "libfoo.a" ]}.

Definition prebuilt_disk : gmap string (gmap string node) :=
  {[ "/tmp/prebuilt/install" := prebuilt_install ]}.

(** A default run with the override pointing at that tree. *)
Definition prebuilt_world : World :=
  start default_options {[ "BUILD_DIR_FULL_PATH" := "/tmp/prebuilt" ]} prebuilt_disk.

(** A scan that reports every regular file: a stand-in for Conan's own
    when a phase is run on a sample. *)
Definition is_file (n : node) : bool :=
  match n with File _ => true | Symlink _ => false end.

Definition sample_collect_libs (d : gmap string node) : list string :=
  (map_to_list (filter (λ e, is_file e.2 = true) d)).*1.

(** * Properties *)

Example requirements_default :
  declared (exec requirements (start default_options ∅ ∅)) =
  ["protobuf/3.21.12"; "spdlog/1.13.0"; "up-cpp/x.y.z"; "zenohc/cci.20240213"].
Proof. vm_compute. reflexivity. Qed.

(** Runs a phase on the world in the goal by unfolding the monad. *)
Ltac run_phase :=
  cbv [exec resolve requirements generate build package package_info
       when requires info environ_get is_not_None CMakeToolchain tc_generate
       cmake update_cpp_info set_property set_libs set_requires set_names
       collect_libs copy gets modify mbind mret Phase_bind Phase_ret start
       with_environ fst snd self_options os_environ declared toolchains
       cmake_calls output disk package_folder self_cpp_info cpp_properties
       cpp_libs cpp_requires cpp_names shared fPIC build_testing
       build_unbundled build_cross_compiling].

(** ** Requirements *)

(** Whatever was declared before, [requirements] appends the resolved
    list of the options and touches nothing else. *)
Lemma requirements_run (w : World) :
  requirements w =
  (tt, {| self_options := self_options w; os_environ := os_environ w;
          declared := declared w ++ resolve (self_options w);
          toolchains := toolchains w; cmake_calls := cmake_calls w;
          output := output w; disk := disk w;
          package_folder := package_folder w;
          self_cpp_info := self_cpp_info w |}).
Proof.
  destruct w as [[sh fp bt bu cc] env decl tcs calls out d pkg ci].
  destruct bt, bu, cc; run_phase; rewrite <- ?app_assoc; reflexivity.
Qed.

Lemma requirements_declared (w : World) :
  declared (exec requirements w) = declared w ++ resolve (self_options w).
Proof. unfold exec. by rewrite requirements_run. Qed.

Lemma resolve_unfold (o : Options) :
  resolve o =
  [ "protobuf/3.21.12" +:+ (if build_cross_compiling o then "@cross/cross" else "");
    "spdlog/1.13.0"; "up-cpp/x.y.z" ]
  ++ (if build_testing o then ["gtest/1.14.0"; "boost/1.84.0"] else [])
  ++ (if build_unbundled o then ["zenohc/cci.20240213"] else []).
Proof. destruct o as [sh fp [] [] []]; reflexivity. Qed.

(** Membership in a list of strings, decided by evaluation. *)
Lemma elem_of_reflect (x : string) (l : list string) (b : bool) :
  bool_decide (x ∈ l) = b → (x ∈ l ↔ b = true).
Proof. intros <-. by rewrite bool_decide_eq_true. Qed.

(** C3. With [build_testing] and [build_unbundled] both off, exactly three
    requirements are resolved: protobuf (serialization), spdlog (logging)
    and up-cpp (transport API), in that order; a run of [requirements]
    declares these three and no other. *)
Theorem requirements_minimal (w : World) :
  build_testing (self_options w) = false →
  build_unbundled (self_options w) = false →
  length (resolve (self_options w)) = 3 ∧
  component <$> resolved (self_options w) = ["protobuf"; "spdlog"; "up-cpp"] ∧
  declared (exec requirements w) =
    declared w ++
    [ "protobuf/3.21.12" +:+
        (if build_cross_compiling (self_options w) then "@cross/cross" else "");
      "spdlog/1.13.0"; "up-cpp/x.y.z" ].
Proof.
  intros Ht Hu. rewrite requirements_declared. unfold resolved.
  rewrite resolve_unfold, Ht, Hu.
  destruct (build_cross_compiling (self_options w)); done.
Qed.

Lemma requirements_minimal_witness :
  length (resolve (mkOptions true true false false true)) = 3 ∧
  component <$> resolved (mkOptions true true false false true) =
    ["protobuf"; "spdlog"; "up-cpp"] ∧
  declared (exec requirements (start (mkOptions true true false false true) ∅ ∅)) =
    ["protobuf/3.21.12@cross/cross"; "spdlog/1.13.0"; "up-cpp/x.y.z"].
Proof.
  exact (requirements_minimal (start (mkOptions true true false false true) ∅ ∅)
           eq_refl eq_refl).
Defined.

(** C5. The transport backend (zenohc) is among the resolved requirements
    exactly when [build_unbundled] is on, and it is on by default, so the
    default resolution contains it. *)
Theorem transport_backend_iff_unbundled (o : Options) :
  ("zenohc/cci.20240213" ∈ resolve o ↔ build_unbundled o = true) ∧
  ("zenohc" ∈ component <$> resolved o ↔ build_unbundled o = true) ∧
  build_unbundled default_options = true ∧
  "zenohc/cci.20240213" ∈ resolve default_options.
Proof.
  destruct o as [sh fp bt bu cc].
  split; [apply elem_of_reflect; destruct bt, bu, cc; vm_compute; reflexivity|].
  split; [apply elem_of_reflect; destruct bt, bu, cc; vm_compute; reflexivity|].
  split; [reflexivity|].
  apply (elem_of_reflect _ _ true); vm_compute; reflexivity.
Qed.

(** C6. Two option sets that differ only in [build_cross_compiling]
    resolve to lists of the same length that agree at every position but
    the first; there both name protobuf 3.21.12, without qualifier when
    the switch is off and with the qualifier cross/cross when it is on. *)
Theorem cross_compiling_only_changes_channel (sh fp bt bu : bool) :
  length (resolve (mkOptions sh fp bt bu true)) =
    length (resolve (mkOptions sh fp bt bu false)) ∧
  (∀ i : nat, i ≠ 0 →
     resolve (mkOptions sh fp bt bu true) !! i =
     resolve (mkOptions sh fp bt bu false) !! i) ∧
  (∃ rest, resolve (mkOptions sh fp bt bu false) = "protobuf/3.21.12" :: rest ∧
           resolve (mkOptions sh fp bt bu true) =
             "protobuf/3.21.12@cross/cross" :: rest) ∧
  parse_reference "protobuf/3.21.12" =
    {| component := "protobuf"; version := "3.21.12"; channel := None |} ∧
  parse_reference "protobuf/3.21.12@cross/cross" =
    {| component := "protobuf"; version := "3.21.12";
       channel := Some "cross/cross" |}.
Proof.
  rewrite !resolve_unfold. cbn.
  repeat split.
  - intros [|i] Hi; [done | reflexivity].
  - eexists. split; reflexivity.
Qed.

(** C8. Resolution depends on the options alone: two runs of
    [requirements] under the same options, started from the same declared
    list, declare the same ordered list whatever else differs between the
    two worlds (environment, disk, earlier phases); and a run changes no
    part of the world but the declared list. *)
Theorem requirements_pure (w1 w2 : World) :
  self_options w1 = self_options w2 →
  declared w1 = declared w2 →
  declared (exec requirements w1) = declared (exec requirements w2) ∧
  resolve (self_options w1) = resolve (self_options w2) ∧
  (∀ w : World,
     exec requirements w =
     {| self_options := self_options w; os_environ := os_environ w;
        declared := declared w ++ resolve (self_options w);
        toolchains := toolchains w; cmake_calls := cmake_calls w;
        output := output w; disk := disk w;
        package_folder := package_folder w;
        self_cpp_info := self_cpp_info w |}).
Proof.
  intros Ho Hd. rewrite !requirements_declared, Ho, Hd.
  repeat split. intros w. unfold exec. by rewrite requirements_run.
Qed.

Lemma requirements_pure_witness :
  declared (exec requirements (start default_options ∅ ∅)) =
  declared (exec requirements
    (start default_options {[ "BUILD_DIR_FULL_PATH" := "/tmp/prebuilt" ]}
       prebuilt_disk)).
Proof.
  exact (proj1 (requirements_pure
    (start default_options ∅ ∅)
    (start default_options {[ "BUILD_DIR_FULL_PATH" := "/tmp/prebuilt" ]}
       prebuilt_disk)
    eq_refl eq_refl)).
Defined.

(** ** Toolchain generation *)

Lemma generate_run (w : World) :
  generate w =
  (tt, {| self_options := self_options w; os_environ := os_environ w;
          declared := declared w;
          toolchains :=
            toolchains w ++ [ {[ "BUILD_TESTING" := build_testing (self_options w) ]} ];
          cmake_calls := cmake_calls w; output := output w; disk := disk w;
          package_folder := package_folder w;
          self_cpp_info := self_cpp_info w |}).
Proof.
  destruct w as [o env decl tcs calls out d pkg ci].
  run_phase. by rewrite insert_empty.
Qed.

(** C10. [generate] never looks at the environment: it writes one
    toolchain whose only variable is BUILD_TESTING, equal to the
    [build_testing] option, changes nothing else, and does the same under
    any other environment. *)
Theorem generate_ignores_environment (w : World) (env : gmap string string) :
  exec generate w =
    {| self_options := self_options w; os_environ := os_environ w;
       declared := declared w;
       toolchains :=
         toolchains w ++ [ {[ "BUILD_TESTING" := build_testing (self_options w) ]} ];
       cmake_calls := cmake_calls w; output := output w; disk := disk w;
       package_folder := package_folder w;
       self_cpp_info := self_cpp_info w |} ∧
  size ({[ "BUILD_TESTING" := build_testing (self_options w) ]} : gmap string bool) = 1 ∧
  exec generate (with_environ env w) = with_environ env (exec generate w).
Proof.
  unfold exec. rewrite !generate_run. split; [done|].
  split; [apply map_size_singleton | reflexivity].
Qed.

(** C4. Under the options build_testing on, build_unbundled on,
    build_cross_compiling off, and with BUILD_DIR_FULL_PATH unset, the
    resolved list is protobuf, spdlog, up-cpp, gtest, boost, zenohc in that
    order, and the toolchain written by [generate] carries
    BUILD_TESTING = true. *)
Theorem testing_unbundled_scenario (w : World) (sh fp : bool) :
  self_options w = mkOptions sh fp true true false →
  os_environ w !! "BUILD_DIR_FULL_PATH" = None →
  resolve (self_options w) =
    [ "protobuf/3.21.12"; "spdlog/1.13.0"; "up-cpp/x.y.z";
      "gtest/1.14.0"; "boost/1.84.0"; "zenohc/cci.20240213" ] ∧
  component <$> resolved (self_options w) =
    [ "protobuf"; "spdlog"; "up-cpp"; "gtest"; "boost"; "zenohc" ] ∧
  declared (exec generate (exec requirements w)) =
    declared w ++
    [ "protobuf/3.21.12"; "spdlog/1.13.0"; "up-cpp/x.y.z";
      "gtest/1.14.0"; "boost/1.84.0"; "zenohc/cci.20240213" ] ∧
  toolchains (exec generate (exec requirements w)) =
    toolchains w ++ [ {[ "BUILD_TESTING" := true ]} ].
Proof.
  intros Ho _. unfold exec, resolved.
  rewrite requirements_run, generate_run. cbn.
  rewrite resolve_unfold, Ho. done.
Qed.

Lemma testing_unbundled_scenario_witness :
  declared (exec generate (exec requirements
    (start (mkOptions false false true true false) ∅ ∅))) =
    [ "protobuf/3.21.12"; "spdlog/1.13.0"; "up-cpp/x.y.z";
      "gtest/1.14.0"; "boost/1.84.0"; "zenohc/cci.20240213" ] ∧
  toolchains (exec generate (exec requirements
    (start (mkOptions false false true true false) ∅ ∅))) =
    [ {[ "BUILD_TESTING" := true ]} ].
Proof.
  exact (proj2 (proj2 (testing_unbundled_scenario
    (start (mkOptions false false true true false) ∅ ∅) false false
    eq_refl eq_refl))).
Defined.

(** ** Build and package *)

Lemma build_run (w : World) :
  build w =
  (tt, match os_environ w !! "BUILD_DIR_FULL_PATH" with
       | Some _ => w
       | None =>
           {| self_options := self_options w; os_environ := os_environ w;
              declared := declared w; toolchains := toolchains w;
              cmake_calls := cmake_calls w ++ [Configure; Build];
              output := output w; disk := disk w;
              package_folder := package_folder w;
              self_cpp_info := self_cpp_info w |}
       end).
Proof.
  destruct w as [o env decl tcs calls out d pkg ci].
  run_phase. destruct (env !! "BUILD_DIR_FULL_PATH"); [done|].
  by rewrite <- app_assoc.
Qed.

Lemma package_run (copier : Copier) (w : World) :
  package copier w =
  (tt, match os_environ w !! "BUILD_DIR_FULL_PATH" with
       | Some path =>
           {| self_options := self_options w; os_environ := os_environ w;
              declared := declared w; toolchains := toolchains w;
              cmake_calls := cmake_calls w;
              output := output w ++ [ "BUILD_DIR_FULL_PATH: " +:+ path;
                                      "BUILD_DIR_FULL_PATH: " +:+ path ];
              disk := disk w;
              package_folder :=
                copier "*" "." (path +:+ "/install") true false
                  (disk w) (package_folder w);
              self_cpp_info := self_cpp_info w |}
       | None =>
           {| self_options := self_options w; os_environ := os_environ w;
              declared := declared w; toolchains := toolchains w;
              cmake_calls := cmake_calls w ++ [Install];
              output := output w; disk := disk w;
              package_folder := package_folder w;
              self_cpp_info := self_cpp_info w |}
       end).
Proof.
  destruct w as [o env decl tcs calls out d pkg ci].
  run_phase. destruct (env !! "BUILD_DIR_FULL_PATH") as [path|]; [|done].
  by rewrite <- app_assoc.
Qed.

Lemma package_info_run (collect_libs_of : gmap string node → list string) (w : World) :
  package_info collect_libs_of w =
  (tt, {| self_options := self_options w; os_environ := os_environ w;
          declared := declared w; toolchains := toolchains w;
          cmake_calls := cmake_calls w; output := output w; disk := disk w;
          package_folder := package_folder w;
          self_cpp_info :=
            match os_environ w !! "BUILD_DIR_FULL_PATH" with
            | Some _ =>
                {| cpp_properties :=
                     <[ "pkg_config_name" := "up-client-zenoh-cpp" ]>
                       (<[ "cmake_target_name" := "up-client-zenoh-cpp::up-client-zenoh-cpp" ]>
                          (<[ "cmake_file_name" := "up-client-zenoh-cpp" ]>
                             (cpp_properties (self_cpp_info w))));
                   cpp_libs := collect_libs_of (package_folder w);
                   cpp_requires :=
                     [ "up-cpp::up-cpp"; "zenohc::zenohc"; "spdlog::spdlog";
                       "protobuf::protobuf" ];
                   cpp_names :=
                     <[ "cmake_find_package_multi" := "up-client-zenoh-cpp" ]>
                       (<[ "cmake_find_package" := "up-client-zenoh-cpp" ]>
                          (cpp_names (self_cpp_info w))) |}
            | None =>
                {| cpp_properties := cpp_properties (self_cpp_info w);
                   cpp_libs := [ "up-client-zenoh-cpp" ];
                   cpp_requires := cpp_requires (self_cpp_info w);
                   cpp_names := cpp_names (self_cpp_info w) |}
            end |}).
Proof.
  destruct w as [o env decl tcs calls out d pkg [props libs reqs names]].
  run_phase. destruct (env !! "BUILD_DIR_FULL_PATH"); reflexivity.
Qed.

(** ** The override *)

(** A log that got an entry is not the log it was. *)
Lemma app_grows {A} (l k : list A) : k ≠ [] → l ++ k ≠ l.
Proof.
  intros Hk H. apply (f_equal length) in H. rewrite length_app in H.
  destruct k; [done | cbn in H; lia].
Qed.

(** C2, as stated, fails: with BUILD_DIR_FULL_PATH set to the empty string
    the build phase still skips the toolchain, although the variable holds
    no non-empty string. *)
Lemma empty_override_counterexample :
  ¬ (cmake_calls (exec build (start default_options {[ "BUILD_DIR_FULL_PATH" := "" ]} ∅)) = []
     ↔ ∃ path : string,
         os_environ (start default_options {[ "BUILD_DIR_FULL_PATH" := "" ]} ∅)
           !! "BUILD_DIR_FULL_PATH" = Some path ∧ path ≠ "").
Proof.
  intros [Hskip _]. destruct (Hskip eq_refl) as (path & Hget & Hne).
  vm_compute in Hget. by injection Hget as <-.
Qed.

(** C2, amended. The override is present exactly when BUILD_DIR_FULL_PATH
    is set, to any string, the empty one included, and absent exactly when
    it is unset.  Set: [build] does nothing, [package] calls no toolchain
    step, [package_info] publishes the four link targets.  Unset: [build]
    configures and builds, [package] installs, [package_info] publishes
    the library name alone. *)
Theorem override_present_iff_set
    (collect_libs_of : gmap string node → list string)
    (copier : Copier)
    (w : World) :
  match os_environ w !! "BUILD_DIR_FULL_PATH" with
  | Some _ =>
      exec build w = w ∧
      cmake_calls (exec (package copier) w) = cmake_calls w ∧
      cpp_requires (self_cpp_info (exec (package_info collect_libs_of) w)) =
        [ "up-cpp::up-cpp"; "zenohc::zenohc"; "spdlog::spdlog"; "protobuf::protobuf" ]
  | None =>
      cmake_calls (exec build w) = cmake_calls w ++ [Configure; Build] ∧
      exec (package copier) w =
        {| self_options := self_options w; os_environ := os_environ w;
           declared := declared w; toolchains := toolchains w;
           cmake_calls := cmake_calls w ++ [Install];
           output := output w; disk := disk w;
           package_folder := package_folder w;
           self_cpp_info := self_cpp_info w |} ∧
      self_cpp_info (exec (package_info collect_libs_of) w) =
        {| cpp_properties := cpp_properties (self_cpp_info w);
           cpp_libs := [ "up-client-zenoh-cpp" ];
           cpp_requires := cpp_requires (self_cpp_info w);
           cpp_names := cpp_names (self_cpp_info w) |}
  end ∧
  (cmake_calls (exec build w) = cmake_calls w
     ↔ is_Some (os_environ w !! "BUILD_DIR_FULL_PATH")) ∧
  (cmake_calls (exec (package copier) w) = cmake_calls w
     ↔ is_Some (os_environ w !! "BUILD_DIR_FULL_PATH")).
Proof.
  unfold exec. rewrite build_run, package_run, package_info_run.
  destruct (os_environ w !! "BUILD_DIR_FULL_PATH") as [path|]; cbn.
  - repeat split; eauto.
  - split; [done|].
    split; (split; [intros H; by apply app_grows in H | by intros [? ?]]).
Qed.

(** ** Importing a prebuilt tree *)


(** ** Published metadata *)

(** C1, as stated, fails: with BUILD_DIR_FULL_PATH unset a fresh run
    publishes no discovery alias and no upstream requirement. *)
Lemma package_info_unset_counterexample :
  ¬ (os_environ (start default_options ∅ ∅) !! "BUILD_DIR_FULL_PATH" = None →
     is_Some (cpp_properties (self_cpp_info
       (exec (package_info sample_collect_libs) (start default_options ∅ ∅)))
       !! "cmake_file_name") ∧
     length (cpp_requires (self_cpp_info
       (exec (package_info sample_collect_libs) (start default_options ∅ ∅)))) = 4).
Proof.
  intros H. destruct (H eq_refl) as [_ Hlen]. vm_compute in Hlen. discriminate.
Qed.

(** With the variable set, cmake_target_name is the package name
    qualified by itself, not the bare package name. *)
Example package_info_target_name :
  cpp_properties (self_cpp_info (exec (package_info sample_collect_libs) prebuilt_world))
    !! "cmake_target_name" = Some "up-client-zenoh-cpp::up-client-zenoh-cpp".
Proof. vm_compute. reflexivity. Qed.

(** C1, amended (the two cases are the other way round). With
    BUILD_DIR_FULL_PATH set, [package_info] publishes the discovery
    aliases (cmake_file_name and pkg_config_name are the package name,
    cmake_target_name is the package name qualified by itself, and the
    names of the two cmake_find_package generators are the package name),
    the libraries found by scanning the package folder, and four upstream
    link targets.  With it unset, only [libs] is assigned, to the package
    name alone: no alias and no upstream requirement is published. *)
Theorem package_info_by_override
    (collect_libs_of : gmap string node → list string) (w : World) :
  self_cpp_info (exec (package_info collect_libs_of) w) =
  match os_environ w !! "BUILD_DIR_FULL_PATH" with
  | Some _ =>
      {| cpp_properties :=
           <[ "pkg_config_name" := name ]>
             (<[ "cmake_target_name" := name +:+ "::" +:+ name ]>
                (<[ "cmake_file_name" := name ]>
                   (cpp_properties (self_cpp_info w))));
         cpp_libs := collect_libs_of (package_folder w);
         cpp_requires :=
           [ "up-cpp::up-cpp"; "zenohc::zenohc"; "spdlog::spdlog"; "protobuf::protobuf" ];
         cpp_names :=
           <[ "cmake_find_package_multi" := name ]>
             (<[ "cmake_find_package" := name ]> (cpp_names (self_cpp_info w))) |}
  | None =>
      {| cpp_properties := cpp_properties (self_cpp_info w);
         cpp_libs := [ name ];
         cpp_requires := cpp_requires (self_cpp_info w);
         cpp_names := cpp_names (self_cpp_info w) |}
  end.
Proof. unfold exec. by rewrite package_info_run. Qed.

(** C9. Whenever BUILD_DIR_FULL_PATH is set, the published upstream
    requirements are up-cpp, zenohc, spdlog, protobuf (each as
    component::component), in that order, whatever the options, hence
    also when zenohc was never declared or when test requirements were. *)
Theorem published_requires_fixed
    (collect_libs_of : gmap string node → list string) (w : World) :
  is_Some (os_environ w !! "BUILD_DIR_FULL_PATH") →
  cpp_requires (self_cpp_info (exec (package_info collect_libs_of) w)) =
    [ "up-cpp::up-cpp"; "zenohc::zenohc"; "spdlog::spdlog"; "protobuf::protobuf" ].
Proof.
  intros [path Hset]. unfold exec. by rewrite package_info_run, Hset.
Qed.

Lemma published_requires_fixed_witness :
  resolve (mkOptions false false true false false) =
    [ "protobuf/3.21.12"; "spdlog/1.13.0"; "up-cpp/x.y.z";
      "gtest/1.14.0"; "boost/1.84.0" ] ∧
  cpp_requires (self_cpp_info (exec (package_info sample_collect_libs)
    (start (mkOptions false false true false false)
       {[ "BUILD_DIR_FULL_PATH" := "/tmp/prebuilt" ]} prebuilt_disk))) =
    [ "up-cpp::up-cpp"; "zenohc::zenohc"; "spdlog::spdlog"; "protobuf::protobuf" ].
Proof.
  split; [reflexivity|].
  apply (published_requires_fixed sample_collect_libs
    (start (mkOptions false false true false false)
       {[ "BUILD_DIR_FULL_PATH" := "/tmp/prebuilt" ]} prebuilt_disk)).
  exists "/tmp/prebuilt". reflexivity.
Defined.

(** * Further properties of the recipe *)

(** ** The resolved list *)

(** A decidable proposition against the boolean it evaluates to. *)
Lemma decide_reflect (P : Prop) `{Decision P} (b : bool) :
  bool_decide P = b → (P ↔ b = true).
Proof. intros <-. by rewrite bool_decide_eq_true. Qed.

Lemma gtest_resolved (o : Options) :
  "gtest/1.14.0" ∈ resolve o ↔ build_testing o = true.
Proof.
  destruct o as [sh fp bt bu cc].
  apply elem_of_reflect; destruct bt, bu, cc; vm_compute; reflexivity.
Qed.

(** X1. gtest and boost are required exactly under [build_testing]; they
    then sit at positions 3 and 4, right behind the three unconditional
    requirements and ahead of zenohc, which moves up to position 3 when
    testing is off. *)
Theorem test_requirements_iff_testing (o : Options) :
  ("gtest/1.14.0" ∈ resolve o ↔ build_testing o = true) ∧
  ("boost/1.84.0" ∈ resolve o ↔ build_testing o = true) ∧
  resolve o !! 3 =
    (if build_testing o then Some "gtest/1.14.0"
     else if build_unbundled o then Some "zenohc/cci.20240213" else None) ∧
  resolve o !! 4 = (if build_testing o then Some "boost/1.84.0" else None) ∧
  resolve o !! 5 =
    (if build_testing o && build_unbundled o then Some "zenohc/cci.20240213"
     else None).
Proof.
  split; [apply gtest_resolved|].
  destruct o as [sh fp bt bu cc].
  split; [apply elem_of_reflect; destruct bt, bu, cc; vm_compute; reflexivity|].
  rewrite resolve_unfold. destruct bt, bu; repeat split.
Qed.

(** X2. No component is required twice, whatever the options: Conan never
    sees two references to one package. *)
Theorem resolved_components_distinct (o : Options) :
  NoDup (component <$> resolved o).
Proof.
  destruct o as [sh fp bt bu cc].
  apply (bool_decide_unpack _). destruct bt, bu, cc; vm_compute; exact I.
Qed.

(** X3. The list always starts with protobuf, spdlog, up-cpp; testing adds
    two entries and the unbundled backend one, so it has between three and
    six entries. *)
Theorem resolve_length (o : Options) :
  length (resolve o) =
    3 + (if build_testing o then 2 else 0) + (if build_unbundled o then 1 else 0) ∧
  (3 ≤ length (resolve o) ≤ 6)%nat ∧
  take 3 (component <$> resolved o) = ["protobuf"; "spdlog"; "up-cpp"].
Proof.
  unfold resolved. rewrite resolve_unfold.
  destruct o as [sh fp [] [] []]; cbn; repeat split; lia.
Qed.

(** X4. protobuf under cross compilation is the only requirement that ever
    carries a user/channel qualifier; zenohc in particular is pinned by its
    version alone. *)
Theorem only_protobuf_has_channel (o : Options) (r : Requirement) :
  r ∈ resolved o →
  channel r =
    (if build_cross_compiling o && bool_decide (component r = "protobuf")
     then Some "cross/cross" else None).
Proof.
  revert r. apply Forall_forall. apply (bool_decide_unpack _).
  destruct o as [sh fp [] [] []]; vm_compute; exact I.
Qed.

Lemma only_protobuf_has_channel_witness :
  channel (parse_reference "zenohc/cci.20240213") = None.
Proof.
  apply (only_protobuf_has_channel (mkOptions false false true true true)
           (parse_reference "zenohc/cci.20240213")).
  apply list_elem_of_fmap_2, (bool_decide_unpack _). vm_compute. exact I.
Defined.

(** X5. [shared] and [fPIC] have no part in resolution: option sets that
    agree on the three build switches resolve to the same list. *)
Theorem resolve_ignores_linkage (o1 o2 : Options) :
  build_testing o1 = build_testing o2 →
  build_unbundled o1 = build_unbundled o2 →
  build_cross_compiling o1 = build_cross_compiling o2 →
  resolve o1 = resolve o2.
Proof. intros Ht Hu Hc. by rewrite !resolve_unfold, Ht, Hu, Hc. Qed.

Lemma resolve_ignores_linkage_witness :
  resolve (mkOptions true true false true false) = resolve default_options.
Proof.
  exact (resolve_ignores_linkage (mkOptions true true false true false)
           default_options eq_refl eq_refl eq_refl).
Defined.

(** ** Phases together *)

(** Unfolds one phase whose run lemma is known and reduces the
    projections it leaves on the world it built. *)
Ltac next_phase run :=
  rewrite run;
  cbn [fst snd self_options os_environ declared toolchains cmake_calls output
       disk package_folder self_cpp_info cpp_properties cpp_libs cpp_requires
       cpp_names].

(** X6. Tests are switched on in the generated toolchain exactly when the
    test framework is among the declared requirements: after
    [requirements] and [generate], BUILD_TESTING is true if and only if
    gtest was declared. *)
Theorem build_testing_matches_gtest (w : World) :
  ∃ tc : gmap string bool,
    last (toolchains (exec generate (exec requirements w))) = Some tc ∧
    (tc !! "BUILD_TESTING" = Some true ↔ "gtest/1.14.0" ∈ resolve (self_options w)) ∧
    (tc !! "BUILD_TESTING" = Some false ↔ "gtest/1.14.0" ∉ resolve (self_options w)).
Proof.
  unfold exec. next_phase requirements_run. next_phase generate_run.
  rewrite last_snoc. eexists. split; [reflexivity|].
  rewrite lookup_singleton_eq, gtest_resolved.
  destruct (build_testing (self_options w)); naive_solver.
Qed.

(** X7. With the override set, the published link targets all belong to
    declared requirements exactly when [build_unbundled] is on: with it off
    zenohc::zenohc is published although zenohc was never required. *)
Theorem published_targets_declared_iff_unbundled
    (collect_libs_of : gmap string node → list string) (w : World) :
  is_Some (os_environ w !! "BUILD_DIR_FULL_PATH") →
  (∀ target : string,
     target ∈ cpp_requires (self_cpp_info (exec (package_info collect_libs_of) w)) →
     link_package target ∈ component <$> resolved (self_options w))
  ↔ build_unbundled (self_options w) = true.
Proof.
  intros [path Hset]. unfold exec. next_phase package_info_run. rewrite Hset.
  cbn [cpp_requires]. rewrite <- Forall_forall.
  apply (decide_reflect _).
  destruct (self_options w) as [sh fp [] [] []]; vm_compute; reflexivity.
Qed.

Lemma published_targets_declared_iff_unbundled_witness :
  (∀ target : string,
     target ∈ cpp_requires (self_cpp_info
       (exec (package_info sample_collect_libs) prebuilt_world)) →
     link_package target ∈ component <$> resolved default_options)
  ↔ build_unbundled default_options = true.
Proof.
  apply (published_targets_declared_iff_unbundled sample_collect_libs prebuilt_world).
  exists "/tmp/prebuilt". reflexivity.
Defined.

(** X8. No phase writes the options or the environment; the override
    test therefore gives the same answer in every phase of one run, and a
    later phase sees the options the requirements were resolved from. *)
Theorem phases_keep_configuration
    (collect_libs_of : gmap string node → list string)
    (copier : Copier)
    (w : World) :
  Forall (λ phase : Phase unit,
            self_options (exec phase w) = self_options w ∧
            os_environ (exec phase w) = os_environ w ∧
            is_not_None (os_environ (exec phase w) !! "BUILD_DIR_FULL_PATH") =
              is_not_None (os_environ w !! "BUILD_DIR_FULL_PATH"))
    [ requirements; generate; build; package copier;
      package_info collect_libs_of ].
Proof.
  rewrite !Forall_cons, Forall_nil. unfold exec.
  next_phase requirements_run. next_phase generate_run.
  next_phase package_info_run. rewrite build_run, package_run.
  destruct (os_environ w !! "BUILD_DIR_FULL_PATH") as [path|] eqn:Henv;
    cbn [snd self_options os_environ]; rewrite ?Henv; done.
Qed.

(** X9. Over a whole run (requirements, generate, build, package,
    package_info) the native toolchain is driven either not at all, when
    the override is set, or through configure, build, install in that
    order, when it is not. *)
Theorem lifecycle_toolchain_calls
    (collect_libs_of : gmap string node → list string)
    (copier : Copier)
    (w : World) :
  cmake_calls
    (exec (package_info collect_libs_of)
       (exec (package copier)
          (exec build (exec generate (exec requirements w))))) =
  cmake_calls w ++
    match os_environ w !! "BUILD_DIR_FULL_PATH" with
    | Some _ => []
    | None => [Configure; Build; Install]
    end.
Proof.
  unfold exec. next_phase requirements_run. next_phase generate_run.
  next_phase build_run.
  destruct (os_environ w !! "BUILD_DIR_FULL_PATH") as [path|] eqn:Henv.
  - next_phase package_run. rewrite Henv. next_phase package_info_run.
    by rewrite app_nil_r.
  - next_phase package_run. rewrite Henv. next_phase package_info_run.
    by rewrite <- app_assoc.
Qed.

(** X10. What is published after packaging: with the override set, the
    libraries a scan finds in the package folder as the copier left it;
    with it unset, the package name alone, whatever the install step
    produced. *)
Theorem imported_tree_is_scanned
    (collect_libs_of : gmap string node → list string)
    (copier : Copier)
    (w : World) :
  cpp_libs (self_cpp_info
    (exec (package_info collect_libs_of) (exec (package copier) w))) =
  match os_environ w !! "BUILD_DIR_FULL_PATH" with
  | Some path =>
      collect_libs_of
        (copier "*" "." (path +:+ "/install") true false
           (disk w) (package_folder w))
  | None => [ "up-client-zenoh-cpp" ]
  end.
Proof.
  unfold exec. next_phase (package_run copier w).
  destruct (os_environ w !! "BUILD_DIR_FULL_PATH") as [path|] eqn:Hset;
    next_phase package_info_run; by rewrite Hset.
Qed.

(** Assigning the same keys a second time changes nothing. *)
Lemma insert_three_again {A} (m : gmap string A) (a b c : string) (x y z : A) :
  <[a:=x]> (<[b:=y]> (<[c:=z]> (<[a:=x]> (<[b:=y]> (<[c:=z]> m))))) =
  <[a:=x]> (<[b:=y]> (<[c:=z]> m)).
Proof.
  apply map_eq; intros key. rewrite !lookup_insert.
  repeat case_decide; congruence.
Qed.

Lemma insert_two_again {A} (m : gmap string A) (a b : string) (x y : A) :
  <[a:=x]> (<[b:=y]> (<[a:=x]> (<[b:=y]> m))) = <[a:=x]> (<[b:=y]> m).
Proof.
  apply map_eq; intros key. rewrite !lookup_insert.
  repeat case_decide; congruence.
Qed.

(** X12. Publishing twice is publishing once: a second run of
    [package_info] changes nothing, in either branch. *)
Theorem package_info_idempotent
    (collect_libs_of : gmap string node → list string) (w : World) :
  exec (package_info collect_libs_of) (exec (package_info collect_libs_of) w) =
  exec (package_info collect_libs_of) w.
Proof.
  unfold exec. next_phase (package_info_run collect_libs_of w).
  destruct (os_environ w !! "BUILD_DIR_FULL_PATH") as [path|] eqn:Henv;
    next_phase package_info_run; rewrite Henv; [|reflexivity].
  by rewrite insert_three_again, insert_two_again.
Qed.

(** X13. The late phases leave the early phases' results alone: [build]
    and [package] declare no requirement, write no toolchain and publish
    nothing; [package_info] declares no requirement, writes no toolchain,
    drives no toolchain step and puts nothing in the package folder. *)
Theorem phases_write_own_part
    (collect_libs_of : gmap string node → list string)
    (copier : Copier)
    (w : World) :
  (declared (exec build w) = declared w ∧
   toolchains (exec build w) = toolchains w ∧
   self_cpp_info (exec build w) = self_cpp_info w) ∧
  (declared (exec (package copier) w) = declared w ∧
   toolchains (exec (package copier) w) = toolchains w ∧
   self_cpp_info (exec (package copier) w) = self_cpp_info w) ∧
  (declared (exec (package_info collect_libs_of) w) = declared w ∧
   toolchains (exec (package_info collect_libs_of) w) = toolchains w ∧
   cmake_calls (exec (package_info collect_libs_of) w) = cmake_calls w ∧
   package_folder (exec (package_info collect_libs_of) w) = package_folder w).
Proof.
  unfold exec. rewrite build_run, package_run. next_phase package_info_run.
  by destruct (os_environ w !! "BUILD_DIR_FULL_PATH").
Qed.

(** X14. An override set to the empty string is still an override:
    once the variable is set to it, whatever the world was, [build] does
    nothing and [package] calls no toolchain step, prints the prefix with
    nothing after it, twice, and hands the copier the source directory
    /install. *)
Theorem empty_override_imports_root_install (copier : Copier) (w : World) :
  exec build (setenv "BUILD_DIR_FULL_PATH" "" w) =
    setenv "BUILD_DIR_FULL_PATH" "" w ∧
  package copier (setenv "BUILD_DIR_FULL_PATH" "" w) =
    (info "BUILD_DIR_FULL_PATH: " ;;
     info "BUILD_DIR_FULL_PATH: " ;;
     copy copier "*" "." "/install" true false)
      (setenv "BUILD_DIR_FULL_PATH" "" w) ∧
  output (exec (package copier) (setenv "BUILD_DIR_FULL_PATH" "" w)) =
    output w ++ ["BUILD_DIR_FULL_PATH: "; "BUILD_DIR_FULL_PATH: "] ∧
  cmake_calls (exec (package copier) (setenv "BUILD_DIR_FULL_PATH" "" w)) =
    cmake_calls w.
Proof.
  assert (Hset : os_environ (setenv "BUILD_DIR_FULL_PATH" "" w)
                   !! "BUILD_DIR_FULL_PATH" = Some "").
  { apply lookup_insert_eq. }
  split; [unfold exec; by rewrite build_run, Hset|].
  split.
  { unfold package, environ_get, gets, mbind, Phase_bind. by rewrite Hset. }
  unfold exec. by rewrite package_run, Hset.
Qed.
